(** * dsigm: Core and CoreCluster ([_core.py]) and utilities ([_utils.py])

    A shallow embedding of the two Python modules of the package, over a
    small model of the Python values they handle, and the properties of
    construction, validation, density evaluation and random-state
    creation that hold of them. *)

From Stdlib Require Import ZArith QArith.
From stdpp Require Import gmap strings list fin_maps.

Local Open Scope Z_scope.
Local Open Scope string_scope.
Local Open Scope list_scope.
Set Warnings "-register-all".

(** ** Python values *)

(** The classes that instances handled by the package can have. *)
Inductive npkind := np_bool | np_int | np_float | np_str.

Inductive pyclass :=
| cls_object
| cls_NoneType
| cls_bool
| cls_int
| cls_float
| cls_str
| cls_list
| cls_tuple
| cls_type
| cls_module
| cls_ndarray
| cls_np_generic                (* numpy.generic *)
| cls_np_integer                (* numpy.integer *)
| cls_np (k : npkind)           (* numpy.bool_, int64, float64, str_ *)
| cls_RandomState               (* numpy.random.RandomState *)
| cls_Core
| cls_CoreCluster
| cls_user (name : string).     (* any other class *)

Inductive pyfloat := Finite (q : Q) | PosInf | NegInf | NaN.

Inductive npdtype := DObject | DNative (k : npkind).

Record ndarray_ (V : Type) := mk_ndarray {
  dtype : npdtype;
  shape : list nat;
  items : list V                (* the elements, row-major *)
}.
Arguments mk_ndarray {V} _ _ _.
Arguments dtype {V} _.
Arguments shape {V} _.
Arguments items {V} _.

Inductive value :=
| VNone
| VBool (b : bool)
| VInt (z : Z)
| VFloat (f : pyfloat)
| VStr (s : string)
| VList (l : list value)
| VTuple (l : list value)
| VType (c : pyclass)
| VModule (name : string)
| VNdarray (a : ndarray_ value)
| VGeneric (k : npkind) (payload : value)   (* a numpy scalar *)
| VObj (c : pyclass) (id : nat).            (* reference to an instance *)

Abbreviation ndarray := (ndarray_ value).

(** ** Exceptions and results *)

Inductive exn :=
| ValueError (msg : string)
| TypeError (msg : string)
| NameError (msg : string)
| AttributeError (msg : string)
| IndexError (msg : string).

Inductive result (A : Type) :=
| Ok (a : A)
| Raise (e : exn).
Arguments Ok {A} _.
Arguments Raise {A} _.

#[global] Instance result_ret : MRet result := fun _ a => Ok a.
#[global] Instance result_fmap : FMap result := fun _ _ f r =>
  match r with
  | Ok a => Ok (f a)
  | Raise e => Raise e
  end.
#[global] Instance result_bind : MBind result := fun _ _ f r =>
  match r with
  | Ok a => f a
  | Raise e => Raise e
  end.

(** ** Classes: [type], [issubclass], [isinstance] *)

#[global] Instance npkind_eq_dec : EqDecision npkind.
Proof. solve_decision. Defined.

#[global] Instance pyclass_eq_dec : EqDecision pyclass.
Proof. solve_decision. Defined.

Definition pyclass_code (c : pyclass) : nat + string :=
  match c with
  | cls_object => inl 0%nat
  | cls_NoneType => inl 1%nat
  | cls_bool => inl 2%nat
  | cls_int => inl 3%nat
  | cls_float => inl 4%nat
  | cls_str => inl 5%nat
  | cls_list => inl 6%nat
  | cls_tuple => inl 7%nat
  | cls_type => inl 8%nat
  | cls_module => inl 9%nat
  | cls_ndarray => inl 10%nat
  | cls_np_generic => inl 11%nat
  | cls_np_integer => inl 12%nat
  | cls_np np_bool => inl 13%nat
  | cls_np np_int => inl 14%nat
  | cls_np np_float => inl 15%nat
  | cls_np np_str => inl 16%nat
  | cls_RandomState => inl 17%nat
  | cls_Core => inl 18%nat
  | cls_CoreCluster => inl 19%nat
  | cls_user n => inr n
  end.

Definition pyclass_of_code (x : nat + string) : option pyclass :=
  match x with
  | inr n => Some (cls_user n)
  | inl k =>
      [cls_object; cls_NoneType; cls_bool; cls_int; cls_float; cls_str;
       cls_list; cls_tuple; cls_type; cls_module; cls_ndarray;
       cls_np_generic; cls_np_integer; cls_np np_bool; cls_np np_int;
       cls_np np_float; cls_np np_str; cls_RandomState; cls_Core;
       cls_CoreCluster] !! k
  end.

Lemma pyclass_code_inv (c : pyclass) : pyclass_of_code (pyclass_code c) = Some c.
Proof. destruct c as [| | | | | | | | | | | | | [] | | | |]; reflexivity. Qed.

#[global] Instance pyclass_countable : Countable pyclass :=
  inj_countable pyclass_code pyclass_of_code pyclass_code_inv.

(** [type(v)] *)
Definition type_of (v : value) : pyclass :=
  match v with
  | VNone => cls_NoneType
  | VBool _ => cls_bool
  | VInt _ => cls_int
  | VFloat _ => cls_float
  | VStr _ => cls_str
  | VList _ => cls_list
  | VTuple _ => cls_tuple
  | VType _ => cls_type
  | VModule _ => cls_module
  | VNdarray _ => cls_ndarray
  | VGeneric k _ => cls_np k
  | VObj c _ => c
  end.

(** [cls.__name__] *)
Definition class_name (c : pyclass) : string :=
  match c with
  | cls_object => "object"
  | cls_NoneType => "NoneType"
  | cls_bool => "bool"
  | cls_int => "int"
  | cls_float => "float"
  | cls_str => "str"
  | cls_list => "list"
  | cls_tuple => "tuple"
  | cls_type => "type"
  | cls_module => "module"
  | cls_ndarray => "ndarray"
  | cls_np_generic => "generic"
  | cls_np_integer => "integer"
  | cls_np np_bool => "bool_"
  | cls_np np_int => "int64"
  | cls_np np_float => "float64"
  | cls_np np_str => "str_"
  | cls_RandomState => "RandomState"
  | cls_Core => "Core"
  | cls_CoreCluster => "CoreCluster"
  | cls_user n => n
  end.

(** The direct bases that matter: [bool] derives from [int], the numpy
    scalar types from [numpy.generic] ([int64] through [numpy.integer],
    [float64] and [str_] also from the builtin [float] and [str]). *)
Definition issubclass (c d : pyclass) : bool :=
  bool_decide (c = d) || bool_decide (d = cls_object) ||
  match c, d with
  | cls_bool, cls_int => true
  | cls_np _, cls_np_generic => true
  | cls_np_integer, cls_np_generic => true
  | cls_np np_int, cls_np_integer => true
  | cls_np np_float, cls_float => true
  | cls_np np_str, cls_str => true
  | _, _ => false
  end.

Definition isinstance_msg : string :=
  "isinstance() arg 2 must be a type, a tuple of types, or a union".

(** [isinstance(inst, classinfo)]: [classinfo] is a class or a tuple
    (possibly nested) whose entries are tried from left to right; an
    entry that is neither raises [TypeError], also when it is [None]. *)
Fixpoint isinstance (inst classinfo : value) : result bool :=
  match classinfo with
  | VType c => Ok (issubclass (type_of inst) c)
  | VTuple l =>
      (fix entries (l : list value) : result bool :=
         match l with
         | [] => Ok false
         | c :: rest =>
             match isinstance inst c with
             | Ok false => entries rest
             | r => r
             end
         end) l
  | _ => Raise (TypeError isinstance_msg)
  end.

(** ** The numpy operations the package calls *)

(** [np.isscalar(v)]: true of Python numbers and strings and of numpy
    scalars; false of [None], sequences, arrays and every other object. *)
Definition np_isscalar (v : value) : bool :=
  match v with
  | VBool _ | VInt _ | VFloat _ | VStr _ | VGeneric _ _ => true
  | _ => false
  end.

(** Leaves that numpy stores unboxed; a Python integer qualifies when it
    fits a 64-bit machine integer. *)
Definition native_kind (v : value) : option npkind :=
  match v with
  | VBool _ => Some np_bool
  | VInt z => if bool_decide (- 2 ^ 63 ≤ z < 2 ^ 64) then Some np_int else None
  | VFloat _ => Some np_float
  | VStr _ => Some np_str
  | VGeneric k _ => Some k
  | _ => None
  end.

Definition promote (k1 k2 : npkind) : npkind :=
  match k1, k2 with
  | np_str, _ | _, np_str => np_str
  | np_float, _ | _, np_float => np_float
  | np_int, _ | _, np_int => np_int
  | np_bool, np_bool => np_bool
  end.

(** The element type of an array built from [leaves]: [float64] for no
    leaves, [object] as soon as one leaf is not native. *)
Fixpoint infer_dtype (leaves : list value) : npdtype :=
  match leaves with
  | [] => DNative np_float
  | [v] => from_option DNative DObject (native_kind v)
  | v :: rest =>
      match native_kind v, infer_dtype rest with
      | Some k, DNative k' => DNative (promote k k')
      | _, _ => DObject
      end
  end.

(** What reading an element back yields: the object itself in an
    [object] array, a numpy scalar otherwise (the payload records the
    leaf it was converted from). *)
Definition box (dt : npdtype) (v : value) : value :=
  match dt, v with
  | DObject, _ => v
  | DNative k, VGeneric _ p => VGeneric k p
  | DNative k, _ => VGeneric k v
  end.

Fixpoint collect {A} (rs : list (result A)) : result (list A) :=
  match rs with
  | [] => Ok []
  | r :: rest => a ← r; as' ← collect rest; Ok (a :: as')
  end.

Section Numpy.
(** What array coercion does with a sequence whose entries do not have
    one common shape depends on the numpy release (an error in recent
    ones, an array of objects in older ones): it is left open. *)
Variable ragged : list value → result (list nat * list value).

Definition stack (l : list value) (subs : list (list nat * list value))
  : result (list nat * list value) :=
  match subs with
  | [] => Ok ([0%nat], [])
  | (s, _) :: _ =>
      if forallb (λ p, bool_decide (p.1 = s)) subs
      then Ok (length subs :: s, concat (snd <$> subs))
      else ragged l
  end.

(** Shape and leaves of an array-like, outermost axis first. *)
Fixpoint nest (v : value) : result (list nat * list value) :=
  match v with
  | VList l | VTuple l => subs ← collect (map nest l); stack l subs
  | VNdarray a => Ok (shape a, items a)
  | _ => Ok ([], [v])
  end.

(** [np.asarray(v)] *)
Definition np_asarray (v : value) : result ndarray :=
  match v with
  | VNdarray a => Ok a
  | _ =>
      '(s, leaves) ← nest v;
      let dt := infer_dtype leaves in
      Ok (mk_ndarray dt s (box dt <$> leaves))
  end.
End Numpy.

(** The policy of recent numpy releases: such a sequence is refused. *)
Definition ragged_error (l : list value) : result (list nat * list value) :=
  Raise (ValueError "setting an array element with a sequence. The requested array has an inhomogeneous shape").

(** [n] consecutive chunks of [k] elements. *)
Fixpoint chunks {A} (k n : nat) (l : list A) : list (list A) :=
  match n with
  | O => []
  | S n' => take k l :: chunks k n' (drop k l)
  end.

(** [for item in a]: the elements of a one-dimensional array, the
    sub-arrays along the first axis of a higher-dimensional one; an
    array without axes cannot be iterated. *)
Definition iter_ndarray (a : ndarray) : result (list value) :=
  match shape a with
  | [] => Raise (TypeError "iteration over a 0-d array")
  | [_] => Ok (items a)
  | n :: rest =>
      Ok ((λ c, VNdarray (mk_ndarray (dtype a) rest c)) <$>
          chunks (foldr Nat.mul 1%nat rest) n (items a))
  end.

(** [for item in v] for the values that can come up as an attribute. *)
Definition iter (v : value) : result (list value) :=
  match v with
  | VNdarray a => iter_ndarray a
  | VList l | VTuple l => Ok l
  | VStr s => Ok ((λ c, VStr (String c "")) <$> String.list_ascii_of_string s)
  | _ => Raise (TypeError ("'" ++ class_name (type_of v) ++ "' object is not iterable"))
  end.

(** A one-dimensional array of references to instances of [c]. *)
Definition refs_array (c : pyclass) (ids : list nat) : ndarray :=
  mk_ndarray DObject [length ids] (VObj c <$> ids).

(** The exception of iterating an array without axes. *)
Definition iteration_0d : exn := TypeError "iteration over a 0-d array".

(** Values that array coercion takes as one element: everything but
    the sequences and the arrays. *)
Definition is_leaf (v : value) : bool :=
  match v with
  | VList _ | VTuple _ | VNdarray _ => false
  | _ => true
  end.

Definition no_attribute (c : pyclass) (attr : string) : exn :=
  AttributeError ("'" ++ class_name c ++ "' object has no attribute '" ++ attr ++ "'").

(** [v.shape] *)
Definition shape_of (v : value) : result (list nat) :=
  match v with
  | VNdarray a => Ok (shape a)
  | VGeneric _ _ => Ok []
  | _ => Raise (no_attribute (type_of v) "shape")
  end.

(** [t[-1]] on a tuple *)
Definition tuple_last {A} (t : list A) : result A :=
  match last t with
  | Some x => Ok x
  | None => Raise (IndexError "tuple index out of range")
  end.

(** ** Instances and methods *)

(** An instance is its attribute dictionary; a method reads and updates
    the dictionary of [self] and returns or raises.  Attribute
    assignments made before an exception stay in place. *)
Abbreviation obj := (gmap string value).

Definition method (A : Type) : Type := obj → result A * obj.

#[global] Instance method_ret : MRet method := λ _ a self, (Ok a, self).
#[global] Instance method_bind : MBind method := λ _ _ f m self,
  match m self with
  | (Ok a, self') => f a self'
  | (Raise e, self') => (Raise e, self')
  end.

Definition raise {A} (e : exn) : method A := λ self, (Raise e, self).

Definition lift {A} (r : result A) : method A := λ self, (r, self).

(** [self.attr] for a data attribute of an instance of class [c] *)
Definition getattr (c : pyclass) (attr : string) : method value := λ self,
  match self !! attr with
  | Some v => (Ok v, self)
  | None => (Raise (no_attribute c attr), self)
  end.

(** [self.attr = v] *)
Definition setattr (attr : string) (v : value) : method unit := λ self,
  (Ok tt, <[attr := v]> self).

(** [cls(...)]: a fresh instance is initialised by [init]; the caller
    gets the instance or the exception. *)
Definition construct (init : method unit) : result obj :=
  match init ∅ with
  | (Ok _, self) => Ok self
  | (Raise e, _) => Raise e
  end.


(** ** Module namespaces *)

Definition name_error (name : string) : exn :=
  NameError ("name '" ++ name ++ "' is not defined").

Definition builtins : gmap string value :=
  {[ "int" := VType cls_int;
     "isinstance" := VObj (cls_user "builtin_function_or_method") 0;
     "len" := VObj (cls_user "builtin_function_or_method") 1;
     "set" := VType (cls_user "set");
     "type" := VType cls_type;
     "ValueError" := VType (cls_user "ValueError") ]}.

(** Reading a global name from inside a function: the namespace of the
    defining module first, the builtins next, [NameError] otherwise. *)
Definition load_global (globals : gmap string value) (name : string) : result value :=
  match globals !! name with
  | Some v => Ok v
  | None =>
      match builtins !! name with
      | Some v => Ok v
      | None => Raise (name_error name)
      end
  end.

(** Attributes of the numpy modules that the package reads. *)
Definition rand_singleton : value := VObj cls_RandomState 0.

Definition py_getattr (v : value) (attr : string) : result value :=
  match v with
  | VModule m =>
      if bool_decide (m = "numpy") && bool_decide (attr = "random")
      then Ok (VModule "numpy.random")
      else if bool_decide (m = "numpy") && bool_decide (attr = "integer")
      then Ok (VType cls_np_integer)
      else if bool_decide (m = "numpy.random") && bool_decide (attr = "mtrand")
      then Ok (VModule "numpy.random.mtrand")
      else if bool_decide (m = "numpy.random") && bool_decide (attr = "RandomState")
      then Ok (VType cls_RandomState)
      else if bool_decide (m = "numpy.random.mtrand") && bool_decide (attr = "_rand")
      then Ok rand_singleton
      else Raise (AttributeError ("module '" ++ m ++ "' has no attribute '" ++ attr ++ "'"))
  | _ => Raise (no_attribute (type_of v) attr)
  end.

(** ** [_utils.py] *)

Module _utils.

Definition function : pyclass := cls_user "function".

(** The module has no import statement: its namespace binds the two
    functions it defines (and the interpreter's [__name__], [__doc__]
    and the like). *)
Definition globals : gmap string value :=
  {[ "format_array" := VObj function 0;
     "create_random_state" := VObj function 1 ]}.

(** The body of [format_array] is [pass]: it returns [None]. *)
Definition format_array (array : value) : result value := Ok VNone.

Section create_random_state.
(** The namespace in which the function looks up its global names. *)
Variable namespace : gmap string value.
(** [numpy.random.RandomState(seed=...)], numpy's own constructor. *)
Variable RandomState_new : value → result value.

Definition call_RandomState (callee seed : value) : result value :=
  match callee with
  | VType cls_RandomState => RandomState_new seed
  | _ => Raise (TypeError ("'" ++ class_name (type_of callee) ++ "' object is not callable"))
  end.

Definition create_random_state (seed : value) : result value :=
  match seed with
  | VNone =>
      np ← load_global namespace "np";
      random ← py_getattr np "random";
      mtrand ← py_getattr random "mtrand";
      py_getattr mtrand "_rand"
  | _ =>
      int ← load_global namespace "int";
      np ← load_global namespace "np";
      integer ← py_getattr np "integer";
      is_int ← isinstance seed (VTuple [int; integer]);
      if is_int : bool then
        np ← load_global namespace "np";
        random ← py_getattr np "random";
        RandomState ← py_getattr random "RandomState";
        call_RandomState RandomState seed
      else
        np ← load_global namespace "np";
        random ← py_getattr np "random";
        RandomState ← py_getattr random "RandomState";
        is_state ← isinstance seed RandomState;
        if is_state : bool then Ok seed
        else Raise (ValueError "Seed must be None, an int, or a Random State")
  end.
End create_random_state.

End _utils.

(** The namespace [_utils] would have with [import numpy as np]. *)
Definition globals_with_numpy : gmap string value :=
  <["np" := VModule "numpy"]> _utils.globals.

(** Seeds that pass [isinstance(seed, (int, np.integer))]. *)
Definition int_like (seed : value) : bool :=
  issubclass (type_of seed) cls_int || issubclass (type_of seed) cls_np_integer.

(** ** [_core.py]: class [Core] *)

Module Core.

Definition msg_mu : string := "Invalid argument provided for mu. Must be a vector".
Definition msg_sigma : string := "Invalid argument provided for sigma. Must be a vector".
Definition msg_delta : string := "Invalid argument provided for delta. Must be a vector".
Definition msg_cluster : string :=
  "Invalid argument provided for cluster. Must be None or CoreCluster. Found ".
Definition msg_mismatch : string := "Mismatch in dimensions between mu and sigma".

Definition attr : string → method value := getattr cls_Core.

(** [self.a.shape[-1]] *)
Definition trailing (a : string) : method nat :=
  v ← attr a; s ← lift (shape_of v); lift (tuple_last s).

Definition _validate_init : method unit :=
  mu ← attr "mu";
  if np_isscalar mu then raise (ValueError msg_mu) else
  sigma ← attr "sigma";
  if np_isscalar sigma then raise (ValueError msg_sigma) else
  delta ← attr "delta";
  if np_isscalar delta then raise (ValueError msg_delta) else
  cluster ← attr "cluster";
  ok ← lift (isinstance cluster (VTuple [VNone; VType cls_CoreCluster]));
  if negb ok then
    cluster ← attr "cluster";
    raise (ValueError (msg_cluster ++ class_name (type_of cluster)))
  else
  m ← trailing "mu";
  s ← trailing "sigma";
  if bool_decide (m = s) then
    d ← trailing "mu";
    setattr "dim" (VInt (Z.of_nat d))
  else raise (ValueError msg_mismatch).

(** The error that validation ends with once the four attributes are
    there and [mu] and [sigma] are arrays. *)
Definition validation_error (delta : value) : exn :=
  if np_isscalar delta then ValueError msg_delta else TypeError isinstance_msg.

Section Core.
Variable ragged : list value → result (list nat * list value).
(** [scipy.stats.multivariate_normal.pdf(x=, mean=, cov=)] *)
Variable mvn_pdf : value → value → value → result value.

Definition __init__ (mu sigma delta cluster : value) : method unit :=
  setattr "dim" (VInt (-1));;
  a ← lift (np_asarray ragged mu);
  setattr "mu" (VNdarray a);;
  b ← lift (np_asarray ragged sigma);
  setattr "sigma" (VNdarray b);;
  setattr "delta" delta;;
  setattr "cluster" cluster;;
  _validate_init.

(** [Core(mu, sigma, delta, cluster)], an omitted argument taking
    its default. *)
Definition new (mu sigma delta cluster : option value) : result obj :=
  construct (__init__ (default (VList [VInt 0]) mu)
                      (default (VList [VInt 1]) sigma)
                      (default (VInt 1) delta)
                      (default VNone cluster)).

Definition pdf (data : value) : method value :=
  data ← lift (_utils.format_array data);
  _validate_init;;
  mu ← attr "mu";
  sigma ← attr "sigma";
  lift (mvn_pdf data mu sigma).
End Core.

End Core.

(** ** [_core.py]: class [CoreCluster] *)

Module CoreCluster.

Definition msg_cores : string :=
  "Invalid argument provided for cores. Must be a list of Cores".
Definition msg_parents : string :=
  "Invalid argument provided for parents. Must be a list of CoreClusters".
Definition msg_children : string :=
  "Invalid argument provided for children. Must be a list of CoreClusters".

Definition attr : string → method value := getattr cls_CoreCluster.

(** [set([type(item) for item in v])] *)
Definition types_of (v : value) : method (gset pyclass) :=
  elements ← lift (iter v);
  mret (list_to_set (type_of <$> elements)).

(** [len(types) != 1 or c not in types] *)
Definition not_only (c : pyclass) (types : gset pyclass) : bool :=
  bool_decide (size types ≠ 1%nat) || bool_decide (c ∉ types).

Definition _validate_init : method unit :=
  cores ← attr "cores";
  if np_isscalar cores then raise (ValueError msg_cores) else
  cores ← attr "cores";
  core_types ← types_of cores;
  if not_only cls_Core core_types then raise (ValueError msg_cores) else
  parents ← attr "parents";
  if np_isscalar parents then raise (ValueError msg_parents) else
  parents ← attr "parents";
  parent_types ← types_of parents;
  if not_only cls_CoreCluster parent_types then raise (ValueError msg_parents) else
  children ← attr "children";
  if np_isscalar children then raise (ValueError msg_children) else
  children ← attr "children";
  children_types ← types_of children;
  if not_only cls_CoreCluster children_types then raise (ValueError msg_children) else
  mret tt.

(** The instance as [__init__] leaves it when validation starts: the
    second array is stored under [parent]. *)
Definition assigned (a p c : ndarray) : obj :=
  <["children" := VNdarray c]> (<["parent" := VNdarray p]> (<["cores" := VNdarray a]> ∅)).

Section CoreCluster.
Variable ragged : list value → result (list nat * list value).

Definition __init__ (cores parents children : value) : method unit :=
  a ← lift (np_asarray ragged cores);
  setattr "cores" (VNdarray a);;
  b ← lift (np_asarray ragged parents);
  setattr "parent" (VNdarray b);;
  c ← lift (np_asarray ragged children);
  setattr "children" (VNdarray c);;
  _validate_init.

(** [CoreCluster(cores, parents, children)], an omitted argument
    taking its default, the empty list. *)
Definition new (cores parents children : option value) : result obj :=
  construct (__init__ (default (VList []) cores)
                      (default (VList []) parents)
                      (default (VList []) children)).
End CoreCluster.

End CoreCluster.

(** * Properties *)

Example isinstance_bool_int :
  isinstance (VBool true) (VTuple [VType cls_str; VType cls_int]) = Ok true.
Proof. reflexivity. Qed.

Example isinstance_None_entry :
  isinstance VNone (VTuple [VNone; VType cls_CoreCluster]) = Raise (TypeError isinstance_msg).
Proof. reflexivity. Qed.

Example asarray_vector ragged :
  np_asarray ragged (VList [VInt 0; VInt 0])
  = Ok (mk_ndarray (DNative np_int) [2%nat]
          [VGeneric np_int (VInt 0); VGeneric np_int (VInt 0)]).
Proof. reflexivity. Qed.

Example asarray_matrix_shape ragged :
  shape <$> np_asarray ragged (VList [VList [VInt 1; VInt 0]; VTuple [VInt 0; VInt 1]])
  = Ok [2%nat; 2%nat].
Proof. reflexivity. Qed.

Example asarray_scalar_shape ragged : shape <$> np_asarray ragged (VInt 5) = Ok [].
Proof. reflexivity. Qed.

Example asarray_empty ragged :
  np_asarray ragged (VList []) = Ok (mk_ndarray (DNative np_float) [0%nat] []).
Proof. reflexivity. Qed.

Example asarray_ragged :
  np_asarray ragged_error (VList [VList [VInt 1; VInt 2]; VList [VInt 3]])
  = Raise (ValueError "setting an array element with a sequence. The requested array has an inhomogeneous shape").
Proof. reflexivity. Qed.

Example iter_matrix_rows :
  (np_asarray ragged_error (VList [VList [VInt 1; VInt 0]; VList [VInt 0; VInt 1]])
   ≫= iter_ndarray) ≫= (λ rows : list value, Ok (type_of <$> rows))
  = Ok [cls_ndarray; cls_ndarray].
Proof. reflexivity. Qed.

Example load_np_in_utils : load_global _utils.globals "np" = Raise (name_error "np").
Proof. reflexivity. Qed.

Example load_int_in_utils : load_global _utils.globals "int" = Ok (VType cls_int).
Proof. reflexivity. Qed.

(** ** The method monad *)

Lemma bind_run {A B} (m : method A) (f : A → method B) (self : obj) :
  (m ≫= f) self =
  match m self with
  | (Ok a, self') => f a self'
  | (Raise e, self') => (Raise e, self')
  end.
Proof. reflexivity. Qed.

Lemma getattr_Some c a self v :
  self !! a = Some v → getattr c a self = (Ok v, self).
Proof. unfold getattr. by intros ->. Qed.

Lemma getattr_None c a (self : obj) :
  self !! a = None → getattr c a self = (Raise (no_attribute c a), self).
Proof. unfold getattr. by intros ->. Qed.

(** Running a method step by step on a given [self]. *)
Ltac step :=
  rewrite ?bind_run;
  repeat first
    [ erewrite getattr_Some by (first [eassumption | by simplify_map_eq])
    | erewrite getattr_None by (first [eassumption | by simplify_map_eq]) ];
  cbn [lift raise setattr fst snd np_isscalar].

(** ** [isinstance] against a tuple that starts with [None] *)

Lemma isinstance_None_first inst rest :
  isinstance inst (VTuple (VNone :: rest)) = Raise (TypeError isinstance_msg).
Proof. reflexivity. Qed.

(** An array is never a scalar for [np.isscalar]. *)
Lemma isscalar_ndarray (a : ndarray) : np_isscalar (VNdarray a) = false.
Proof. reflexivity. Qed.

(** ** [Core._validate_init] *)

Lemma validate_init_arrays (self : obj) a b delta cluster :
  self !! "mu" = Some (VNdarray a) →
  self !! "sigma" = Some (VNdarray b) →
  self !! "delta" = Some delta →
  self !! "cluster" = Some cluster →
  Core._validate_init self = (Raise (Core.validation_error delta), self).
Proof.
  intros Hmu Hsigma Hdelta Hcluster.
  unfold Core._validate_init, Core.attr, Core.validation_error.
  do 3 step.
  destruct (np_isscalar delta); [done|].
  do 2 step. by rewrite isinstance_None_first.
Qed.

(** Whatever [self] holds, validation raises and leaves it as it was:
    a missing attribute, a scalar, or the [isinstance] call stops it. *)
Lemma validate_init_raises (self : obj) :
  ∃ e, Core._validate_init self = (Raise e, self).
Proof.
  unfold Core._validate_init, Core.attr.
  destruct (self !! "mu") as [mu|] eqn:Hmu; [|step; eauto].
  step. destruct (np_isscalar mu); [eauto|].
  destruct (self !! "sigma") as [sigma|] eqn:Hsigma; [|step; eauto].
  step. destruct (np_isscalar sigma); [eauto|].
  destruct (self !! "delta") as [delta|] eqn:Hdelta; [|step; eauto].
  step. destruct (np_isscalar delta); [eauto|].
  destruct (self !! "cluster") as [cluster|] eqn:Hcluster; [|step; eauto].
  do 2 step. rewrite isinstance_None_first. eauto.
Qed.

(** ** [Core.__init__] *)

Section CoreInit.
Variable ragged : list value → result (list nat * list value).
Variables mu sigma delta cluster : value.

Lemma init_mu_fails e :
  np_asarray ragged mu = Raise e →
  construct (Core.__init__ ragged mu sigma delta cluster) = Raise e.
Proof.
  intros Hmu. unfold construct, Core.__init__.
  do 2 step. by rewrite Hmu.
Qed.

Lemma init_sigma_fails a e :
  np_asarray ragged mu = Ok a →
  np_asarray ragged sigma = Raise e →
  construct (Core.__init__ ragged mu sigma delta cluster) = Raise e.
Proof.
  intros Hmu Hsigma. unfold construct, Core.__init__.
  do 2 step. rewrite Hmu. do 2 step. by rewrite Hsigma.
Qed.

Lemma init_coerced a b :
  np_asarray ragged mu = Ok a →
  np_asarray ragged sigma = Ok b →
  construct (Core.__init__ ragged mu sigma delta cluster)
  = Raise (Core.validation_error delta).
Proof.
  intros Hmu Hsigma. unfold construct, Core.__init__.
  do 2 step. rewrite Hmu. do 2 step. rewrite Hsigma. do 3 step.
  by erewrite validate_init_arrays by by simplify_map_eq.
Qed.
End CoreInit.

(** ** Construction of a [Core] *)

(** C2, as stated: every call ends in the [ValueError] of one of the
    three scalar checks or in the [TypeError] of the cluster check.
    This fails where numpy refuses the mean: [Core(mu=[[1, 2], [3]])]
    ends in the exception of [np.asarray], raised on line 33 before
    any check runs. *)
Lemma Core_scalar_or_cluster_error_counterexample :
  ¬ ∃ e,
      Core.new ragged_error (Some (VList [VList [VInt 1; VInt 2]; VList [VInt 3]]))
        None None None = Raise e ∧
      (e = ValueError Core.msg_mu ∨ e = ValueError Core.msg_sigma ∨
       e = ValueError Core.msg_delta ∨ e = TypeError isinstance_msg).
Proof.
  intros (e & He & Hcases).
  unfold Core.new in He.
  erewrite init_mu_fails in He by reflexivity.
  injection He as <-.
  destruct Hcases as [H|[H|[H|H]]]; vm_compute in H; discriminate H.
Qed.

(** C2, as amended: whatever the arguments, [Core(...)] raises and no
    instance is built: either the coercion of [mu] or [sigma] to an
    array raises, or [delta] is a scalar and the [delta] check raises
    [ValueError], or the cluster check is reached and its [isinstance]
    call against [(None, CoreCluster)] raises [TypeError]. The checks
    of [mu] and [sigma] never fire: both are arrays by then. *)
Theorem Core_never_constructed ragged (mu sigma delta cluster : option value) :
  let mu' := default (VList [VInt 0]) mu in
  let sigma' := default (VList [VInt 1]) sigma in
  let delta' := default (VInt 1) delta in
  ∃ e, Core.new ragged mu sigma delta cluster = Raise e ∧
       (np_asarray ragged mu' = Raise e ∨
        np_asarray ragged sigma' = Raise e ∨
        (np_isscalar delta' = true ∧ e = ValueError Core.msg_delta) ∨
        (np_isscalar delta' = false ∧ e = TypeError isinstance_msg)).
Proof.
  intros mu' sigma' delta'. unfold Core.new. fold mu' sigma' delta'.
  destruct (np_asarray ragged mu') as [a|e] eqn:Hmu.
  - destruct (np_asarray ragged sigma') as [b|e] eqn:Hsigma.
    + exists (Core.validation_error delta'). split; [by eapply init_coerced|].
      unfold Core.validation_error. destruct (np_isscalar delta'); auto.
    + exists e. split; [by eapply init_sigma_fails|auto].
  - exists e. split; [by apply init_mu_fails|auto].
Qed.

(** C8: when [delta] is a bare scalar, and [mu] and [sigma] coerce to
    arrays, construction fails with the [ValueError] of the [delta]
    check. *)
Theorem Core_scalar_delta_rejected ragged (mu sigma cluster : option value) delta a b :
  np_asarray ragged (default (VList [VInt 0]) mu) = Ok a →
  np_asarray ragged (default (VList [VInt 1]) sigma) = Ok b →
  np_isscalar delta = true →
  Core.new ragged mu sigma (Some delta) cluster = Raise (ValueError Core.msg_delta).
Proof.
  intros Hmu Hsigma Hdelta. unfold Core.new.
  erewrite init_coerced by eassumption.
  unfold Core.validation_error, default. cbn [from_option id]. by rewrite Hdelta.
Qed.

Lemma Core_scalar_delta_rejected_witness :
  np_isscalar (VFloat (Finite (1 # 2))) = true ∧
  Core.new ragged_error (Some (VList [VInt 0; VInt 0])) None
    (Some (VFloat (Finite (1 # 2)))) None
  = Raise (ValueError Core.msg_delta).
Proof.
  split; [reflexivity|].
  eapply Core_scalar_delta_rejected; reflexivity.
Defined.

(** C3: [Core()] with every argument left to its default does not
    return an instance: the default [delta=1] is a bare scalar and the
    [delta] check raises. *)
Theorem Core_defaults_rejected ragged :
  Core.new ragged None None None None = Raise (ValueError Core.msg_delta).
Proof.
  unfold Core.new. by erewrite init_coerced by reflexivity.
Qed.

(** C1: a mean and a covariance with the same trailing dimension, a
    [delta] that is not a scalar and a cluster that is [None] or a
    [CoreCluster] do not yield an instance: the cluster check raises
    [TypeError] before the dimensions are compared. *)
Theorem Core_equal_dims_not_constructed ragged mu sigma delta cluster a b n :
  np_asarray ragged mu = Ok a →
  np_asarray ragged sigma = Ok b →
  last (shape a) = Some n →
  last (shape b) = Some n →
  np_isscalar delta = false →
  cluster = VNone ∨ type_of cluster = cls_CoreCluster →
  Core.new ragged (Some mu) (Some sigma) (Some delta) (Some cluster)
  = Raise (TypeError isinstance_msg).
Proof.
  intros Hmu Hsigma _ _ Hdelta _. unfold Core.new.
  erewrite init_coerced by eassumption.
  unfold Core.validation_error, default. cbn [from_option id]. by rewrite Hdelta.
Qed.

Lemma Core_equal_dims_not_constructed_witness :
  Core.new ragged_error (Some (VList [VInt 0; VInt 0])) (Some (VList [VInt 1; VInt 1]))
    (Some (VList [VInt 1])) (Some VNone)
  = Raise (TypeError isinstance_msg).
Proof.
  eapply (Core_equal_dims_not_constructed ragged_error _ _ _ _ _ _ 2%nat);
    first [reflexivity | by left].
Defined.

(** C4: a mean and a covariance with different trailing dimensions
    (other arguments as above) are not rejected with the mismatch
    error: the cluster check raises [TypeError] first. *)
Theorem Core_unequal_dims_not_mismatch ragged mu sigma delta cluster a b n m :
  np_asarray ragged mu = Ok a →
  np_asarray ragged sigma = Ok b →
  last (shape a) = Some n →
  last (shape b) = Some m →
  n ≠ m →
  np_isscalar delta = false →
  cluster = VNone ∨ type_of cluster = cls_CoreCluster →
  Core.new ragged (Some mu) (Some sigma) (Some delta) (Some cluster)
  = Raise (TypeError isinstance_msg) ∧
  Core.new ragged (Some mu) (Some sigma) (Some delta) (Some cluster)
  ≠ Raise (ValueError Core.msg_mismatch).
Proof.
  intros Hmu Hsigma _ _ _ Hdelta _. unfold Core.new.
  erewrite init_coerced by eassumption.
  unfold Core.validation_error, default. cbn [from_option id]. by rewrite Hdelta.
Qed.

Lemma Core_unequal_dims_not_mismatch_witness :
  Core.new ragged_error (Some (VList [VInt 0; VInt 0])) (Some (VList [VInt 1]))
    (Some (VList [VInt 1])) (Some VNone)
  = Raise (TypeError isinstance_msg) ∧
  Core.new ragged_error (Some (VList [VInt 0; VInt 0])) (Some (VList [VInt 1]))
    (Some (VList [VInt 1])) (Some VNone)
  ≠ Raise (ValueError Core.msg_mismatch).
Proof.
  eapply (Core_unequal_dims_not_mismatch ragged_error _ _ _ _ _ _ 2%nat 1%nat);
    first [reflexivity | by left | discriminate].
Defined.

(** ** [Core.pdf] *)

(** On every instance state and every batch, [pdf] raises and returns
    no density: [format_array] hands back [None] and the validation
    that follows always raises. *)
Lemma Core_pdf_raises mvn_pdf (self : obj) (data : value) :
  ∃ e, Core.pdf mvn_pdf data self = (Raise e, self).
Proof.
  unfold Core.pdf, _utils.format_array. do 2 step.
  destruct (validate_init_raises self) as [e ->]. eauto.
Qed.

(** With the attributes as [__init__] assigns them and a [delta] that
    is a sequence, the call stops at the cluster check. *)
Lemma Core_pdf_after_assignment mvn_pdf (a b : ndarray) (data : value) :
  let self : obj :=
    <["cluster" := VNone]> (<["delta" := VList [VInt 1]]> (<["sigma" := VNdarray b]>
      (<["mu" := VNdarray a]> (<["dim" := VInt (-1)]> ∅)))) in
  Core.pdf mvn_pdf data self = (Raise (TypeError isinstance_msg), self).
Proof.
  intros self. unfold Core.pdf, _utils.format_array. do 2 step.
  by erewrite validate_init_arrays by by (unfold self; simplify_map_eq).
Qed.

(** ** Arrays of instance references *)

Section References.
Variable ragged : list value → result (list nat * list value).
Variable c : pyclass.

Lemma collect_nest_refs (ids : list nat) :
  collect (map (nest ragged) (VObj c <$> ids))
  = Ok ((λ i, ([], [VObj c i])) <$> ids).
Proof.
  induction ids as [|i ids IH]; [done|].
  cbn [fmap list_fmap map collect nest]. fold (fmap (M:=list) (VObj c) ids).
  by rewrite IH.
Qed.

Lemma refs_one_shape (s : list nat) (ids : list nat) :
  s = [] →
  forallb (λ p : list nat * list value, bool_decide (p.1 = s))
    ((λ i, ([], [VObj c i])) <$> ids) = true.
Proof.
  intros ->. induction ids as [|i ids IH]; [done|].
  cbn [fmap list_fmap forallb fst]. fold (fmap (M:=list) (λ i, ([] : list nat, [VObj c i])) ids).
  by rewrite IH, bool_decide_eq_true_2.
Qed.

Lemma refs_leaves (ids : list nat) :
  concat (snd <$> ((λ i, ([] : list nat, [VObj c i])) <$> ids)) = VObj c <$> ids.
Proof. induction ids as [|i ids IH]; [done|]. cbn. by f_equal. Qed.

Lemma infer_dtype_refs (ids : list nat) :
  ids ≠ [] → infer_dtype (VObj c <$> ids) = DObject.
Proof. destruct ids as [|i [|j ids]]; done. Qed.

Lemma box_object (l : list value) : box DObject <$> l = l.
Proof. induction l as [|v l IH]; [done|]. cbn. by f_equal. Qed.

(** A non-empty list of references coerces to a one-dimensional array
    of objects that holds the same references in the same order. *)
Lemma stack_refs (l : list value) (ids : list nat) :
  ids ≠ [] →
  stack ragged l ((λ i, ([], [VObj c i])) <$> ids)
  = Ok ([length ids], VObj c <$> ids).
Proof.
  intros Hne. unfold stack.
  pose proof (refs_one_shape [] ids eq_refl) as Hshape.
  pose proof (refs_leaves ids) as Hleaves.
  destruct ids as [|i ids]; [done|].
  rewrite fmap_cons in *. cbn beta iota. cbn [fst].
  rewrite Hshape, Hleaves. cbn [length]. by rewrite length_fmap.
Qed.

(** A non-empty list of references coerces to a one-dimensional array
    of objects that holds the same references in the same order. *)
Lemma asarray_refs (ids : list nat) :
  ids ≠ [] →
  np_asarray ragged (VList (VObj c <$> ids))
  = Ok (mk_ndarray DObject [length ids] (VObj c <$> ids)).
Proof.
  intros Hne. unfold np_asarray. cbn [nest].
  rewrite collect_nest_refs. cbn [mbind result_bind].
  rewrite stack_refs by done. cbn [mbind result_bind]. cbn zeta.
  by rewrite infer_dtype_refs, box_object by done.
Qed.

Lemma types_of_refs (ids : list nat) :
  ids ≠ [] →
  list_to_set (type_of <$> (VObj c <$> ids)) = ({[ c ]} : gset pyclass).
Proof.
  induction ids as [|i [|j ids] IH]; [done| |]; intros _.
  - cbn. apply (right_id_L ∅ (∪)).
  - cbn [fmap list_fmap list_to_set type_of] in *.
    rewrite IH by done. apply (idemp_L (∪)).
Qed.
End References.

Lemma not_only_singleton (c : pyclass) : CoreCluster.not_only c {[ c ]} = false.
Proof.
  unfold CoreCluster.not_only. rewrite size_singleton.
  rewrite bool_decide_eq_false_2 by (intros H; by apply H).
  rewrite bool_decide_eq_false_2; [done|].
  intros H; apply H. by apply elem_of_singleton.
Qed.

Lemma not_only_empty (c : pyclass) : CoreCluster.not_only c ∅ = true.
Proof.
  unfold CoreCluster.not_only. rewrite size_empty.
  by rewrite bool_decide_eq_true_2 by done.
Qed.

(** ** Construction of a [CoreCluster] *)

Section ClusterInit.
Variable ragged : list value → result (list nat * list value).
Variables cores parents children : value.
Variables a p c : ndarray.
Hypothesis Hcores : np_asarray ragged cores = Ok a.
Hypothesis Hparents : np_asarray ragged parents = Ok p.
Hypothesis Hchildren : np_asarray ragged children = Ok c.

Lemma init_validates :
  CoreCluster.__init__ ragged cores parents children ∅
  = CoreCluster._validate_init (CoreCluster.assigned a p c).
Proof.
  unfold CoreCluster.__init__.
  step. rewrite Hcores. do 2 step. rewrite Hparents. do 2 step.
  rewrite Hchildren. by do 2 step.
Qed.

(** No element along the first axis: the set of element types is
    empty and the first check raises. *)
Lemma init_no_elements :
  iter_ndarray a = Ok [] →
  construct (CoreCluster.__init__ ragged cores parents children)
  = Raise (ValueError CoreCluster.msg_cores).
Proof.
  intros Hiter. unfold construct. rewrite init_validates.
  unfold CoreCluster._validate_init, CoreCluster.attr, CoreCluster.types_of, CoreCluster.assigned.
  do 4 step. cbn [iter]. rewrite Hiter. step.
  cbn [fmap list_fmap list_to_set mret method_ret].
  by rewrite not_only_empty.
Qed.

(** Elements that are all instances of [Core]: the first check
    passes and the next statement reads [self.parents], which
    [__init__] never assigned. *)
Lemma init_only_cores (ids : list nat) :
  ids ≠ [] →
  iter_ndarray a = Ok (VObj cls_Core <$> ids) →
  construct (CoreCluster.__init__ ragged cores parents children)
  = Raise (no_attribute cls_CoreCluster "parents").
Proof.
  intros Hne Hiter. unfold construct. rewrite init_validates.
  unfold CoreCluster._validate_init, CoreCluster.attr, CoreCluster.types_of, CoreCluster.assigned.
  do 4 step. cbn [iter]. rewrite Hiter. step.
  cbn [mret method_ret]. rewrite types_of_refs by done.
  rewrite not_only_singleton. by step.
Qed.
End ClusterInit.

(** C7: a [cores] argument without elements (omitted, [[]], [()], any
    array-like whose first axis is empty) is rejected with the
    [ValueError] of the [cores] check, provided the three arguments
    coerce to arrays: the set of element types has no member. *)
Theorem CoreCluster_empty_cores_rejected ragged (cores parents children : option value) a p c :
  np_asarray ragged (default (VList []) cores) = Ok a →
  np_asarray ragged (default (VList []) parents) = Ok p →
  np_asarray ragged (default (VList []) children) = Ok c →
  iter_ndarray a = Ok [] →
  CoreCluster.new ragged cores parents children
  = Raise (ValueError CoreCluster.msg_cores).
Proof.
  intros Hcores Hparents Hchildren Hiter. unfold CoreCluster.new.
  by eapply init_no_elements.
Qed.

Lemma CoreCluster_empty_cores_rejected_witness :
  CoreCluster.new ragged_error (Some (VList [])) None (Some (VTuple []))
  = Raise (ValueError CoreCluster.msg_cores).
Proof.
  eapply CoreCluster_empty_cores_rejected; reflexivity.
Defined.

(** C6: a non-empty list of references to [Core] instances, with
    [parents] and [children] that coerce to arrays, does not yield a
    cluster: the [cores] check passes and reading [self.parents] raises
    [AttributeError]. *)
Theorem CoreCluster_cores_not_constructed ragged (ids : list nat)
    (parents children : option value) p c :
  ids ≠ [] →
  np_asarray ragged (default (VList []) parents) = Ok p →
  np_asarray ragged (default (VList []) children) = Ok c →
  CoreCluster.new ragged (Some (VList (VObj cls_Core <$> ids))) parents children
  = Raise (no_attribute cls_CoreCluster "parents").
Proof.
  intros Hne Hparents Hchildren. unfold CoreCluster.new.
  eapply init_only_cores; [by apply asarray_refs|done..].
Qed.

Lemma CoreCluster_cores_not_constructed_witness :
  CoreCluster.new ragged_error (Some (VList [VObj cls_Core 1; VObj cls_Core 2]))
    (Some (VList [VObj cls_CoreCluster 3])) (Some (VList [VObj cls_CoreCluster 4]))
  = Raise (AttributeError "'CoreCluster' object has no attribute 'parents'").
Proof.
  eapply (CoreCluster_cores_not_constructed ragged_error [1; 2]%nat);
    first [reflexivity | discriminate].
Defined.

(** ** [create_random_state] *)

(** In a namespace that does not bind [np], every call stops at the
    first read of that name. *)
Lemma create_random_state_unbound (namespace : gmap string value) RandomState_new seed :
  namespace !! "np" = None →
  _utils.create_random_state namespace RandomState_new seed = Raise (name_error "np").
Proof.
  intros Hnp.
  assert (load_global namespace "np" = Raise (name_error "np")) as Hload.
  { unfold load_global. by rewrite Hnp. }
  assert (∃ v, load_global namespace "int" = Ok v) as [int Hint].
  { unfold load_global. destruct (namespace !! "int"); eauto. }
  unfold _utils.create_random_state.
  destruct seed; by rewrite ?Hint, Hload.
Qed.

(** With [np] bound to numpy the three documented branches are taken. *)
Lemma create_random_state_None RandomState_new :
  _utils.create_random_state globals_with_numpy RandomState_new VNone = Ok rand_singleton.
Proof. reflexivity. Qed.

Lemma create_random_state_int RandomState_new z :
  _utils.create_random_state globals_with_numpy RandomState_new (VInt z)
  = RandomState_new (VInt z).
Proof. reflexivity. Qed.

Lemma create_random_state_passes RandomState_new id :
  _utils.create_random_state globals_with_numpy RandomState_new (VObj cls_RandomState id)
  = Ok (VObj cls_RandomState id).
Proof. reflexivity. Qed.

(** C10: in the namespace of [_utils], which binds no [np], every seed
    ends in the [NameError] for [np]; no branch returns. *)
Theorem create_random_state_NameError RandomState_new (seed : value) :
  _utils.create_random_state _utils.globals RandomState_new seed
  = Raise (NameError "name 'np' is not defined").
Proof. by apply create_random_state_unbound. Qed.

(** C9: given a generator handle, the function as the module defines it
    raises the [NameError] for [np] instead of returning the handle. *)
Theorem create_random_state_handle_NameError RandomState_new (id : nat) :
  _utils.create_random_state _utils.globals RandomState_new (VObj cls_RandomState id)
  = Raise (NameError "name 'np' is not defined").
Proof. by apply create_random_state_unbound. Qed.

(** * Further properties *)

(** ** [Core]: checks that cannot fire *)

(** A scalar coerces to an array without axes, whatever the release. *)
Lemma asarray_scalar ragged (v : value) :
  np_isscalar v = true → ∃ a, np_asarray ragged v = Ok a ∧ shape a = [].
Proof. destruct v; try discriminate; intros _; eexists; split; reflexivity. Qed.

(** X1: a mean given as a bare scalar is not stopped by the check of
    [mu] (line 43): once coerced it is an array, and construction ends
    as for any other mean, at the [delta] check or at the cluster check. *)
Theorem Core_scalar_mean_passes_mu_check ragged mu (sigma delta cluster : option value) b :
  np_isscalar mu = true →
  np_asarray ragged (default (VList [VInt 1]) sigma) = Ok b →
  Core.new ragged (Some mu) sigma delta cluster
  = Raise (if np_isscalar (default (VInt 1) delta)
           then ValueError Core.msg_delta else TypeError isinstance_msg) ∧
  Core.new ragged (Some mu) sigma delta cluster ≠ Raise (ValueError Core.msg_mu).
Proof.
  intros Hmu Hsigma. destruct (asarray_scalar ragged mu Hmu) as (a & Ha & _).
  unfold Core.new. erewrite init_coerced by eassumption.
  unfold Core.validation_error. split; [done|].
  destruct (np_isscalar (default (VInt 1) delta)); intros H; vm_compute in H; discriminate H.
Qed.

Lemma Core_scalar_mean_passes_mu_check_witness :
  Core.new ragged_error (Some (VInt 3)) None (Some (VList [VInt 1])) None
  = Raise (TypeError isinstance_msg) ∧
  Core.new ragged_error (Some (VInt 3)) None (Some (VList [VInt 1])) None
  ≠ Raise (ValueError Core.msg_mu).
Proof.
  eapply (Core_scalar_mean_passes_mu_check ragged_error (VInt 3) None
            (Some (VList [VInt 1])) None); reflexivity.
Defined.

(** X2: a covariance given as a bare scalar is not stopped by the
    check of [sigma] (line 45) either. *)
Theorem Core_scalar_sigma_passes_sigma_check ragged (mu : option value) sigma
    (delta cluster : option value) a :
  np_asarray ragged (default (VList [VInt 0]) mu) = Ok a →
  np_isscalar sigma = true →
  Core.new ragged mu (Some sigma) delta cluster
  = Raise (if np_isscalar (default (VInt 1) delta)
           then ValueError Core.msg_delta else TypeError isinstance_msg) ∧
  Core.new ragged mu (Some sigma) delta cluster ≠ Raise (ValueError Core.msg_sigma).
Proof.
  intros Hmu Hsigma. destruct (asarray_scalar ragged sigma Hsigma) as (b & Hb & _).
  unfold Core.new. erewrite init_coerced by eassumption.
  unfold Core.validation_error. split; [done|].
  destruct (np_isscalar (default (VInt 1) delta)); intros H; vm_compute in H; discriminate H.
Qed.

Lemma Core_scalar_sigma_passes_sigma_check_witness :
  Core.new ragged_error None (Some (VFloat (Finite (1 # 2)))) None None
  = Raise (ValueError Core.msg_delta) ∧
  Core.new ragged_error None (Some (VFloat (Finite (1 # 2)))) None None
  ≠ Raise (ValueError Core.msg_sigma).
Proof.
  eapply (Core_scalar_sigma_passes_sigma_check ragged_error None
            (VFloat (Finite (1 # 2))) None None); reflexivity.
Defined.

(** X3: the outcome of construction does not depend on the [cluster]
    argument: no value of it is told apart from another. *)
Theorem Core_cluster_argument_ignored ragged (mu sigma delta c1 c2 : option value) :
  Core.new ragged mu sigma delta c1 = Core.new ragged mu sigma delta c2.
Proof.
  unfold Core.new.
  destruct (np_asarray ragged (default (VList [VInt 0]) mu)) as [a|e] eqn:Hmu.
  - destruct (np_asarray ragged (default (VList [VInt 1]) sigma)) as [b|e] eqn:Hsigma.
    + by erewrite !init_coerced by eassumption.
    + by erewrite !init_sigma_fails by eassumption.
  - by erewrite !init_mu_fails by eassumption.
Qed.

(** X4: [pdf] ends with the exception of the validation, the same for
    every batch and every density routine, which is never called; the
    instance is left as it was. *)
Theorem Core_pdf_is_validation_error (self : obj) :
  ∃ e, Core._validate_init self = (Raise e, self) ∧
       ∀ mvn_pdf data, Core.pdf mvn_pdf data self = (Raise e, self).
Proof.
  destruct (validate_init_raises self) as [e He]. exists e. split; [done|].
  intros mvn_pdf data. unfold Core.pdf, _utils.format_array. do 2 step.
  by rewrite He.
Qed.

(** ** [CoreCluster]: what construction comes to *)

Lemma iter_ndarray_raise (a : ndarray) e : iter_ndarray a = Raise e → e = iteration_0d.
Proof.
  unfold iter_ndarray. destruct (shape a) as [|n [|m rest]]; [|done..].
  by intros [= <-].
Qed.

(** Validation of the instance that [__init__] hands over: iteration
    over [cores] may raise, the [cores] check may raise, and what is
    left stops at [self.parents]. *)
Lemma validate_assigned (a p c : ndarray) :
  CoreCluster._validate_init (CoreCluster.assigned a p c)
  = (match iter_ndarray a with
     | Raise e => Raise e
     | Ok elements =>
         if CoreCluster.not_only cls_Core (list_to_set (type_of <$> elements))
         then Raise (ValueError CoreCluster.msg_cores)
         else Raise (no_attribute cls_CoreCluster "parents")
     end, CoreCluster.assigned a p c).
Proof.
  unfold CoreCluster._validate_init, CoreCluster.attr, CoreCluster.types_of, CoreCluster.assigned.
  do 4 step. cbn [iter]. destruct (iter_ndarray a) as [elements|e]; [|done].
  step. cbn [mret method_ret].
  destruct (CoreCluster.not_only cls_Core _); [done|]. by step.
Qed.

Section ClusterCoercion.
Variable ragged : list value → result (list nat * list value).
Variables cores parents children : value.

Lemma cluster_init_cores_fails e :
  np_asarray ragged cores = Raise e →
  construct (CoreCluster.__init__ ragged cores parents children) = Raise e.
Proof.
  intros H. unfold construct, CoreCluster.__init__. step. by rewrite H.
Qed.

Lemma cluster_init_parents_fails a e :
  np_asarray ragged cores = Ok a →
  np_asarray ragged parents = Raise e →
  construct (CoreCluster.__init__ ragged cores parents children) = Raise e.
Proof.
  intros Ha H. unfold construct, CoreCluster.__init__.
  step. rewrite Ha. do 2 step. by rewrite H.
Qed.

Lemma cluster_init_children_fails a p e :
  np_asarray ragged cores = Ok a →
  np_asarray ragged parents = Ok p →
  np_asarray ragged children = Raise e →
  construct (CoreCluster.__init__ ragged cores parents children) = Raise e.
Proof.
  intros Ha Hp H. unfold construct, CoreCluster.__init__.
  step. rewrite Ha. do 2 step. rewrite Hp. do 2 step. by rewrite H.
Qed.

Lemma cluster_init_coerced a p c :
  np_asarray ragged cores = Ok a →
  np_asarray ragged parents = Ok p →
  np_asarray ragged children = Ok c →
  construct (CoreCluster.__init__ ragged cores parents children)
  = match iter_ndarray a with
    | Raise e => Raise e
    | Ok elements =>
        if CoreCluster.not_only cls_Core (list_to_set (type_of <$> elements))
        then Raise (ValueError CoreCluster.msg_cores)
        else Raise (no_attribute cls_CoreCluster "parents")
    end.
Proof.
  intros Ha Hp Hc. unfold construct.
  erewrite init_validates by eassumption. rewrite validate_assigned.
  destruct (iter_ndarray a); [|done]. by destruct (CoreCluster.not_only _ _).
Qed.
End ClusterCoercion.

(** X5: whatever the arguments, [CoreCluster(...)] raises and no
    cluster is built: a coercion raises, or [cores] has no axis to
    iterate, or the [cores] check raises, or reading [self.parents]
    raises. The checks of [parents] and [children] are never reached. *)
Theorem CoreCluster_never_constructed ragged (cores parents children : option value) :
  let cores' := default (VList []) cores in
  let parents' := default (VList []) parents in
  let children' := default (VList []) children in
  ∃ e, CoreCluster.new ragged cores parents children = Raise e ∧
       (np_asarray ragged cores' = Raise e ∨
        np_asarray ragged parents' = Raise e ∨
        np_asarray ragged children' = Raise e ∨
        e = iteration_0d ∨
        e = ValueError CoreCluster.msg_cores ∨
        e = no_attribute cls_CoreCluster "parents").
Proof.
  intros cores' parents' children'. unfold CoreCluster.new.
  fold cores' parents' children'.
  destruct (np_asarray ragged cores') as [a|e] eqn:Ha;
    [|exists e; split; [by apply cluster_init_cores_fails|auto]].
  destruct (np_asarray ragged parents') as [p|e] eqn:Hp;
    [|exists e; split; [by eapply cluster_init_parents_fails|auto]].
  destruct (np_asarray ragged children') as [c|e] eqn:Hc;
    [|exists e; split; [by eapply cluster_init_children_fails|auto]].
  erewrite cluster_init_coerced by eassumption.
  destruct (iter_ndarray a) as [elements|e] eqn:Hiter.
  - destruct (CoreCluster.not_only _ _); eexists; split; [done|auto 10|done|auto 10].
  - exists e. split; [done|]. apply iter_ndarray_raise in Hiter. auto 10.
Qed.

(** ** [CoreCluster]: elements that are not [Core] instances *)

Lemma not_only_other (c d : pyclass) (types : gset pyclass) :
  d ∈ types → d ≠ c → CoreCluster.not_only c types = true.
Proof.
  intros Hd Hne. unfold CoreCluster.not_only.
  destruct (decide (c ∈ types)) as [Hc|Hc].
  - rewrite bool_decide_eq_true_2; [done|].
    intros Hsize. apply Hne. exact (size_singleton_inv types d c Hsize Hd Hc).
  - rewrite (bool_decide_eq_true_2 (c ∉ types)) by done. apply orb_true_r.
Qed.

(** X6: when some element along the first axis of the coerced [cores]
    is not an instance of [Core], construction fails with the
    [ValueError] of the [cores] check. *)
Theorem CoreCluster_foreign_element_rejected ragged (cores parents children : option value)
    a p c (elements : list value) (v : value) :
  np_asarray ragged (default (VList []) cores) = Ok a →
  np_asarray ragged (default (VList []) parents) = Ok p →
  np_asarray ragged (default (VList []) children) = Ok c →
  iter_ndarray a = Ok elements →
  v ∈ elements →
  type_of v ≠ cls_Core →
  CoreCluster.new ragged cores parents children = Raise (ValueError CoreCluster.msg_cores).
Proof.
  intros Ha Hp Hc Hiter Hv Hty. unfold CoreCluster.new.
  erewrite cluster_init_coerced by eassumption. rewrite Hiter.
  rewrite (not_only_other cls_Core (type_of v)); [done| |done].
  apply elem_of_list_to_set. by apply list_elem_of_fmap_2.
Qed.

Lemma CoreCluster_foreign_element_rejected_witness :
  CoreCluster.new ragged_error
    (Some (VTuple [VObj cls_Core 1; VNone; VObj cls_Core 2])) None None
  = Raise (ValueError CoreCluster.msg_cores).
Proof.
  eapply (CoreCluster_foreign_element_rejected ragged_error
            (Some (VTuple [VObj cls_Core 1; VNone; VObj cls_Core 2])) None None
            _ _ _ _ VNone);
    [reflexivity | reflexivity | reflexivity | reflexivity | | discriminate].
  apply list_elem_of_further, list_elem_of_here.
Defined.

Section Leaves.
Variable ragged : list value → result (list nat * list value).

Lemma collect_nest_leaves (l : list value) :
  Forall (λ v, is_leaf v = true) l →
  collect (map (nest ragged) l) = Ok ((λ v, ([], [v])) <$> l).
Proof.
  induction 1 as [|v l Hv _ IH]; [done|].
  cbn [map collect fmap list_fmap]. fold (fmap (M:=list) (λ v : value, ([] : list nat, [v])) l).
  rewrite IH. by destruct v.
Qed.

Lemma leaves_one_shape (s : list nat) (l : list value) :
  s = [] →
  forallb (λ p : list nat * list value, bool_decide (p.1 = s))
    ((λ v, ([], [v])) <$> l) = true.
Proof.
  intros ->. induction l as [|v l IH]; [done|].
  cbn [fmap list_fmap forallb fst]. fold (fmap (M:=list) (λ v : value, ([] : list nat, [v])) l).
  by rewrite IH, bool_decide_eq_true_2.
Qed.

Lemma leaves_concat (l : list value) :
  concat (snd <$> ((λ v, ([] : list nat, [v])) <$> l)) = l.
Proof. induction l as [|v l IH]; [done|]. cbn. by f_equal. Qed.

Lemma stack_leaves (l0 l : list value) :
  l ≠ [] →
  stack ragged l0 ((λ v, ([], [v])) <$> l) = Ok ([length l], l).
Proof.
  intros Hne. unfold stack.
  pose proof (leaves_one_shape [] l eq_refl) as Hshape.
  pose proof (leaves_concat l) as Hleaves.
  destruct l as [|v l]; [done|].
  rewrite fmap_cons in *. cbn beta iota. cbn [fst].
  rewrite Hshape, Hleaves. cbn [length]. by rewrite length_fmap.
Qed.

(** A non-empty flat sequence coerces to a one-dimensional array of
    its elements. *)
Lemma nest_leaves (l : list value) :
  Forall (λ v, is_leaf v = true) l → l ≠ [] →
  nest ragged (VList l) = Ok ([length l], l) ∧
  nest ragged (VTuple l) = Ok ([length l], l).
Proof.
  intros Hl Hne. cbn [nest]. rewrite collect_nest_leaves by done.
  cbn [mbind result_bind]. by rewrite stack_leaves.
Qed.

Lemma asarray_leaves (l : list value) :
  Forall (λ v, is_leaf v = true) l → l ≠ [] →
  np_asarray ragged (VList l)
  = Ok (mk_ndarray (infer_dtype l) [length l] (box (infer_dtype l) <$> l)).
Proof.
  intros Hl Hne. unfold np_asarray.
  destruct (nest_leaves l Hl Hne) as [-> _]. done.
Qed.
End Leaves.

(** In an array coerced from leaves, an element of another class than
    [Core] stays one, boxed or not. *)
Lemma box_not_Core (dt : npdtype) (v : value) :
  type_of v ≠ cls_Core → type_of (box dt v) ≠ cls_Core.
Proof. destruct dt, v; done. Qed.

(** X7: a flat list of [cores] (no nested sequence or array in it)
    with an element that is not an instance of [Core] is rejected with
    the [ValueError] of the [cores] check: so are a mix of components
    and other objects, a list of numbers, a list of clusters. *)
Theorem CoreCluster_mixed_list_rejected ragged (l : list value)
    (parents children : option value) p c (v : value) :
  Forall (λ v, is_leaf v = true) l →
  v ∈ l →
  type_of v ≠ cls_Core →
  np_asarray ragged (default (VList []) parents) = Ok p →
  np_asarray ragged (default (VList []) children) = Ok c →
  CoreCluster.new ragged (Some (VList l)) parents children
  = Raise (ValueError CoreCluster.msg_cores).
Proof.
  intros Hl Hv Hty Hp Hc. unfold CoreCluster.new.
  assert (l ≠ []) as Hne by (intros ->; by apply not_elem_of_nil in Hv).
  erewrite cluster_init_coerced;
    [|by apply asarray_leaves|eassumption|eassumption].
  unfold iter_ndarray. cbn [shape items].
  rewrite (not_only_other cls_Core (type_of (box (infer_dtype l) v))); [done| |].
  - apply elem_of_list_to_set. by do 2 apply list_elem_of_fmap_2.
  - by apply box_not_Core.
Qed.

Lemma CoreCluster_mixed_list_rejected_witness :
  CoreCluster.new ragged_error
    (Some (VList [VObj cls_Core 1; VObj cls_CoreCluster 2]))
    (Some (VList [VObj cls_CoreCluster 3])) None
  = Raise (ValueError CoreCluster.msg_cores).
Proof.
  eapply (CoreCluster_mixed_list_rejected ragged_error
            [VObj cls_Core 1; VObj cls_CoreCluster 2] _ _ _ _ (VObj cls_CoreCluster 2));
    [by repeat constructor | | discriminate | reflexivity | reflexivity].
  apply list_elem_of_further, list_elem_of_here.
Defined.

(** X8: a [cores] argument that is a bare scalar is not stopped by the
    scalar check of line 100 (it is an array by then): the loop over it
    raises the [TypeError] of iterating an array without axes. *)
Theorem CoreCluster_scalar_cores_not_iterable ragged (cores : value)
    (parents children : option value) p c :
  np_isscalar cores = true →
  np_asarray ragged (default (VList []) parents) = Ok p →
  np_asarray ragged (default (VList []) children) = Ok c →
  CoreCluster.new ragged (Some cores) parents children = Raise iteration_0d.
Proof.
  intros Hscalar Hp Hc. unfold CoreCluster.new.
  destruct (asarray_scalar ragged cores Hscalar) as (a & Ha & Hshape).
  erewrite cluster_init_coerced by eassumption.
  unfold iter_ndarray. by rewrite Hshape.
Qed.

Lemma CoreCluster_scalar_cores_not_iterable_witness :
  CoreCluster.new ragged_error (Some (VInt 5)) None None = Raise iteration_0d.
Proof.
  eapply CoreCluster_scalar_cores_not_iterable; reflexivity.
Defined.

(** X9: [cores] with two or more axes and a non-empty first axis (a
    list of lists of components, say) is rejected with the [ValueError]
    of the [cores] check: the loop yields sub-arrays. *)
Theorem CoreCluster_nested_cores_rejected ragged (cores parents children : option value)
    a p c (n m : nat) (rest : list nat) :
  np_asarray ragged (default (VList []) cores) = Ok a →
  np_asarray ragged (default (VList []) parents) = Ok p →
  np_asarray ragged (default (VList []) children) = Ok c →
  shape a = S n :: m :: rest →
  CoreCluster.new ragged cores parents children = Raise (ValueError CoreCluster.msg_cores).
Proof.
  intros Ha Hp Hc Hshape. unfold CoreCluster.new.
  erewrite cluster_init_coerced by eassumption.
  unfold iter_ndarray. rewrite Hshape. cbn [chunks fmap list_fmap].
  rewrite (not_only_other cls_Core cls_ndarray); [done| |done].
  apply elem_of_list_to_set, list_elem_of_here.
Qed.

Lemma CoreCluster_nested_cores_rejected_witness :
  CoreCluster.new ragged_error
    (Some (VList [VList [VObj cls_Core 1]; VList [VObj cls_Core 2]])) None None
  = Raise (ValueError CoreCluster.msg_cores).
Proof.
  eapply (CoreCluster_nested_cores_rejected ragged_error _ _ _ _ _ _ 1%nat 1%nat []);
    reflexivity.
Defined.

(** ** [CoreCluster._validate_init] on an instance that has [parents] *)

Section ClusterValidation.
Variable self : obj.
Variables a p : ndarray.
Variable ids : list nat.
Hypothesis Hcores : self !! "cores" = Some (VNdarray a).
Hypothesis Hparents : self !! "parents" = Some (VNdarray p).
Hypothesis Ha : iter_ndarray a = Ok (VObj cls_Core <$> ids).
Hypothesis Hids : ids ≠ [].

(** With components in [cores], validation gets to the checks of
    [parents]. *)
Lemma validate_cores_pass :
  CoreCluster._validate_init self
  = match iter_ndarray p with
    | Raise e => (Raise e, self)
    | Ok elements =>
        if CoreCluster.not_only cls_CoreCluster (list_to_set (type_of <$> elements))
        then (Raise (ValueError CoreCluster.msg_parents), self)
        else
          (children ← CoreCluster.attr "children";
           if np_isscalar children then raise (ValueError CoreCluster.msg_children) else
           children ← CoreCluster.attr "children";
           children_types ← CoreCluster.types_of children;
           if CoreCluster.not_only cls_CoreCluster children_types
           then raise (ValueError CoreCluster.msg_children) else mret tt) self
    end.
Proof.
  unfold CoreCluster._validate_init, CoreCluster.attr, CoreCluster.types_of.
  do 4 step. cbn [iter]. rewrite Ha. step. cbn [mret method_ret].
  rewrite types_of_refs by done. rewrite not_only_singleton.
  do 4 step. cbn [iter]. destruct (iter_ndarray p) as [elements|e]; [|done].
  step. cbn [mret method_ret].
  by destruct (CoreCluster.not_only cls_CoreCluster _).
Qed.
End ClusterValidation.

(** X10: on an instance whose [cores], [parents] and [children]
    attributes are arrays that yield, in this order, instances of
    [Core], of [CoreCluster] and of [CoreCluster], at least one each,
    validation returns and changes nothing. *)
Theorem CoreCluster_validate_accepts (self : obj) (a p c : ndarray) (ids pids cids : list nat) :
  self !! "cores" = Some (VNdarray a) →
  self !! "parents" = Some (VNdarray p) →
  self !! "children" = Some (VNdarray c) →
  iter_ndarray a = Ok (VObj cls_Core <$> ids) → ids ≠ [] →
  iter_ndarray p = Ok (VObj cls_CoreCluster <$> pids) → pids ≠ [] →
  iter_ndarray c = Ok (VObj cls_CoreCluster <$> cids) → cids ≠ [] →
  CoreCluster._validate_init self = (Ok tt, self).
Proof.
  intros Hcores Hparents Hchildren Ha Hids Hp Hpids Hc Hcids.
  erewrite validate_cores_pass by eassumption. rewrite Hp.
  rewrite types_of_refs by done. rewrite not_only_singleton.
  unfold CoreCluster.attr, CoreCluster.types_of.
  do 4 step. cbn [iter]. rewrite Hc. step. cbn [mret method_ret].
  rewrite types_of_refs by done. by rewrite not_only_singleton.
Qed.

Lemma CoreCluster_validate_accepts_witness :
  let self : obj :=
    {[ "cores" := VNdarray (refs_array cls_Core [1; 2]%nat);
       "parents" := VNdarray (refs_array cls_CoreCluster [3]%nat);
       "children" := VNdarray (refs_array cls_CoreCluster [4; 5]%nat) ]} in
  CoreCluster._validate_init self = (Ok tt, self).
Proof.
  intros self.
  eapply (CoreCluster_validate_accepts self _ _ _ [1; 2]%nat [3]%nat [4; 5]%nat);
    first [reflexivity | discriminate].
Defined.

(** X11: on such an instance, a [parents] array without elements is
    rejected with the [ValueError] of the [parents] check: the empty
    list that the constructor takes by default cannot pass. *)
Theorem CoreCluster_validate_empty_parents (self : obj) (a p : ndarray) (ids : list nat) :
  self !! "cores" = Some (VNdarray a) →
  self !! "parents" = Some (VNdarray p) →
  iter_ndarray a = Ok (VObj cls_Core <$> ids) → ids ≠ [] →
  iter_ndarray p = Ok [] →
  CoreCluster._validate_init self = (Raise (ValueError CoreCluster.msg_parents), self).
Proof.
  intros Hcores Hparents Ha Hids Hp.
  erewrite validate_cores_pass by eassumption. rewrite Hp.
  cbn [fmap list_fmap list_to_set]. by rewrite not_only_empty.
Qed.

Lemma CoreCluster_validate_empty_parents_witness :
  let self : obj :=
    {[ "cores" := VNdarray (refs_array cls_Core [1; 2]%nat);
       "parents" := VNdarray (mk_ndarray (DNative np_float) [0%nat] []);
       "children" := VNdarray (refs_array cls_CoreCluster [4; 5]%nat) ]} in
  CoreCluster._validate_init self = (Raise (ValueError CoreCluster.msg_parents), self).
Proof.
  intros self.
  eapply (CoreCluster_validate_empty_parents self _ _ [1; 2]%nat);
    first [reflexivity | discriminate].
Defined.

(** X12: with components in [cores] and clusters in [parents], a
    [children] array without elements is rejected with the [ValueError]
    of the [children] check. *)
Theorem CoreCluster_validate_empty_children (self : obj) (a p c : ndarray) (ids pids : list nat) :
  self !! "cores" = Some (VNdarray a) →
  self !! "parents" = Some (VNdarray p) →
  self !! "children" = Some (VNdarray c) →
  iter_ndarray a = Ok (VObj cls_Core <$> ids) → ids ≠ [] →
  iter_ndarray p = Ok (VObj cls_CoreCluster <$> pids) → pids ≠ [] →
  iter_ndarray c = Ok [] →
  CoreCluster._validate_init self = (Raise (ValueError CoreCluster.msg_children), self).
Proof.
  intros Hcores Hparents Hchildren Ha Hids Hp Hpids Hc.
  erewrite validate_cores_pass by eassumption. rewrite Hp.
  rewrite types_of_refs by done. rewrite not_only_singleton.
  unfold CoreCluster.attr, CoreCluster.types_of.
  do 4 step. cbn [iter]. rewrite Hc. step.
  cbn [mret method_ret fmap list_fmap list_to_set]. by rewrite not_only_empty.
Qed.

Lemma CoreCluster_validate_empty_children_witness :
  let self : obj :=
    {[ "cores" := VNdarray (refs_array cls_Core [1; 2]%nat);
       "parents" := VNdarray (refs_array cls_CoreCluster [3]%nat);
       "children" := VNdarray (mk_ndarray (DNative np_float) [0%nat] []) ]} in
  CoreCluster._validate_init self = (Raise (ValueError CoreCluster.msg_children), self).
Proof.
  intros self.
  eapply (CoreCluster_validate_empty_children self _ _ _ [1; 2]%nat [3]%nat);
    first [reflexivity | discriminate].
Defined.

(** ** [create_random_state] in a namespace that binds [np] *)

Lemma isinstance_pair (v : value) (c d : pyclass) :
  isinstance v (VTuple [VType c; VType d])
  = Ok (issubclass (type_of v) c || issubclass (type_of v) d).
Proof.
  cbn [isinstance].
  by destruct (issubclass (type_of v) c), (issubclass (type_of v) d).
Qed.

Section NumpyBound.
Variable namespace : gmap string value.
Variable RandomState_new : value → result value.
Hypothesis Hnp : namespace !! "np" = Some (VModule "numpy").
Hypothesis Hint : namespace !! "int" = None.

Lemma load_np : load_global namespace "np" = Ok (VModule "numpy").
Proof. unfold load_global. by rewrite Hnp. Qed.

Lemma load_int : load_global namespace "int" = Ok (VType cls_int).
Proof. unfold load_global. by rewrite Hint. Qed.

Lemma create_random_state_not_None (seed : value) :
  seed ≠ VNone →
  _utils.create_random_state namespace RandomState_new seed
  = if int_like seed then RandomState_new seed
    else if issubclass (type_of seed) cls_RandomState then Ok seed
    else Raise (ValueError "Seed must be None, an int, or a Random State").
Proof.
  intros Hseed.
  assert (_utils.create_random_state namespace RandomState_new seed
          = (is_int ← isinstance seed (VTuple [VType cls_int; VType cls_np_integer]);
             if is_int : bool then RandomState_new seed
             else
               is_state ← isinstance seed (VType cls_RandomState);
               if is_state : bool then Ok seed
               else Raise (ValueError "Seed must be None, an int, or a Random State")))
    as ->.
  { unfold _utils.create_random_state. rewrite load_int, load_np.
    by destruct seed. }
  rewrite isinstance_pair. fold (int_like seed). cbn [mbind result_bind].
  destruct (int_like seed); [done|]. cbn [isinstance mbind result_bind]. done.
Qed.
End NumpyBound.

(** X13: in a namespace that binds [np] to numpy and leaves [int] to
    the builtins, the function does what its docstring says: numpy's
    shared generator for [None], the constructor's result for an
    integer seed, the handle itself for a generator, [ValueError] for
    anything else. *)
Theorem create_random_state_dispatch (namespace : gmap string value) RandomState_new
    (seed : value) :
  namespace !! "np" = Some (VModule "numpy") →
  namespace !! "int" = None →
  _utils.create_random_state namespace RandomState_new seed
  = match seed with
    | VNone => Ok rand_singleton
    | _ =>
        if int_like seed then RandomState_new seed
        else if issubclass (type_of seed) cls_RandomState then Ok seed
        else Raise (ValueError "Seed must be None, an int, or a Random State")
    end.
Proof.
  intros Hnp Hint.
  destruct seed; try by rewrite create_random_state_not_None.
  unfold _utils.create_random_state. by rewrite load_np.
Qed.

Lemma create_random_state_dispatch_witness :
  _utils.create_random_state globals_with_numpy (λ _, Ok (VObj cls_RandomState 7))
    (VFloat (Finite (1 # 2)))
  = Raise (ValueError "Seed must be None, an int, or a Random State").
Proof.
  apply (create_random_state_dispatch globals_with_numpy
           (λ _, Ok (VObj cls_RandomState 7)) (VFloat (Finite (1 # 2))));
    reflexivity.
Defined.

(** X14: in such a namespace a boolean seed counts as an integer
    ([bool] derives from [int]), and so does a numpy integer scalar:
    both go to the constructor, whose result or exception is what the
    call gives. *)
Theorem create_random_state_bool_is_int (namespace : gmap string value) RandomState_new
    (seed payload : value) (b : bool) :
  namespace !! "np" = Some (VModule "numpy") →
  namespace !! "int" = None →
  seed = VBool b ∨ seed = VGeneric np_int payload →
  _utils.create_random_state namespace RandomState_new seed = RandomState_new seed.
Proof.
  intros Hnp Hint Hseed.
  rewrite create_random_state_not_None by (by destruct Hseed as [-> | ->]).
  by destruct Hseed as [-> | ->].
Qed.

Lemma create_random_state_bool_is_int_witness :
  _utils.create_random_state globals_with_numpy
    (λ s, Raise (TypeError "Cannot cast scalar")) (VBool true)
  = Raise (TypeError "Cannot cast scalar").
Proof.
  apply (create_random_state_bool_is_int globals_with_numpy
           (λ s, Raise (TypeError "Cannot cast scalar")) (VBool true) VNone true);
    first [reflexivity | by left].
Defined.

(** ** What [__init__] leaves on the instance *)

(** X15: [Core.__init__] sets [dim] to -1 first and nothing replaces
    it: whatever the arguments and whatever the instance held before,
    [dim] is -1 when the call ends. *)
Theorem Core_dim_stays_unset ragged (mu sigma delta cluster : value) (self : obj) :
  (Core.__init__ ragged mu sigma delta cluster self).2 !! "dim" = Some (VInt (-1)).
Proof.
  unfold Core.__init__. do 2 step.
  destruct (np_asarray ragged mu) as [a|e]; [|by simplify_map_eq].
  do 2 step.
  destruct (np_asarray ragged sigma) as [b|e]; [|by simplify_map_eq].
  do 3 step.
  match goal with
  | |- context [Core._validate_init ?s] =>
      destruct (validate_init_raises s) as [e ->]
  end.
  by simplify_map_eq.
Qed.

(** X16: [CoreCluster.__init__] on a fresh instance never assigns
    [parents]; the second argument, once coerced, is kept under
    [parent]. *)
Theorem CoreCluster_parents_never_assigned ragged (cores parents children : value) :
  (CoreCluster.__init__ ragged cores parents children ∅).2 !! "parents" = None ∧
  ∀ a p, np_asarray ragged cores = Ok a → np_asarray ragged parents = Ok p →
    (CoreCluster.__init__ ragged cores parents children ∅).2 !! "parent"
    = Some (VNdarray p).
Proof.
  assert (∀ a p c, (CoreCluster._validate_init (CoreCluster.assigned a p c)).2
                   = CoreCluster.assigned a p c) as Hkeep.
  { intros a p c. by rewrite validate_assigned. }
  unfold CoreCluster.__init__. step.
  destruct (np_asarray ragged cores) as [a|e]; [|split; [done|by intros]].
  do 2 step.
  destruct (np_asarray ragged parents) as [p|e]; [|split; [by simplify_map_eq|by intros]].
  do 2 step.
  destruct (np_asarray ragged children) as [c|e].
  - do 2 step. fold (CoreCluster.assigned a p c). rewrite Hkeep.
    unfold CoreCluster.assigned. split; [by simplify_map_eq|].
    intros ? ? [= <-] [= <-]. by simplify_map_eq.
  - split; [by simplify_map_eq|]. intros ? ? [= <-] [= <-]. by simplify_map_eq.
Qed.

(** X17: the arguments are coerced before anything is validated: when
    numpy refuses [mu], or takes [mu] and refuses [sigma], its
    exception is what [Core(...)] raises, also with a scalar [delta]. *)
Theorem Core_coercion_error_first ragged (mu sigma delta cluster : option value) e :
  np_asarray ragged (default (VList [VInt 0]) mu) = Raise e ∨
  ((∃ a, np_asarray ragged (default (VList [VInt 0]) mu) = Ok a) ∧
   np_asarray ragged (default (VList [VInt 1]) sigma) = Raise e) →
  Core.new ragged mu sigma delta cluster = Raise e.
Proof.
  unfold Core.new. intros [Hmu|[[a Hmu] Hsigma]].
  - by apply init_mu_fails.
  - by eapply init_sigma_fails.
Qed.

Lemma Core_coercion_error_first_witness :
  Core.new ragged_error (Some (VList [VList [VInt 1; VInt 2]; VList [VInt 3]])) None None None
  = Raise (ValueError "setting an array element with a sequence. The requested array has an inhomogeneous shape").
Proof.
  apply Core_coercion_error_first. left. reflexivity.
Defined.
